(** * The store admin and the order-created handler, embedded in Rocq

    The repository configures Django's admin for an e-commerce schema
    (store/admin.py) and subscribes one receiver to the [order_created]
    signal (core/signals/handlers.py).  The Python functions of these two
    files are embedded as Rocq functions; the framework calls they make
    (query sets, messages, URL encoding, HTML formatting, formsets, signal
    dispatch) are given the meaning Django and CPython give them. *)

From Stdlib Require Import ZArith List Bool Ascii String Decimal DecimalString DecimalZ Lia.
From stdpp Require Import base option list gmap strings.

Local Open Scope string_scope.
Local Open Scope Z_scope.

(** ** Python runtime: exceptions, state, values, calls *)

Module Py.

(** The exceptions that the embedded code can meet. *)
Inductive exn : Type :=
| TypeError (msg : string)
| KeyError (key : string)
| DatabaseError.

Inductive result (A : Type) : Type :=
| Ok (a : A)
| Raise (e : exn).
Arguments Ok {A} a.
Arguments Raise {A} e.

(** Values that travel as keyword arguments.  An instance carries the
    text its [__str__] returns. *)
Inductive value : Type :=
| PyNone
| PyInt (z : Z)
| PyStr (s : string)
| PyInstance (cls : string) (text : string).

(** [str(int)]: decimal digits, a leading minus sign for negatives. *)
Definition str_int (z : Z) : string := NilEmpty.string_of_int (Z.to_int z).

Definition str (v : value) : string :=
  match v with
  | PyNone => "None"
  | PyInt z => str_int z
  | PyStr s => s
  | PyInstance _ text => text
  end.

(** A computation over a mutable world [S]: an exception leaves the
    mutations made before it in place. *)
Definition M (S A : Type) : Type := S -> result A * S.

Definition ret {S A} (a : A) : M S A := fun s => (Ok a, s).
Definition raise {S A} (e : exn) : M S A := fun s => (Raise e, s).
Definition bind {S A B} (m : M S A) (k : A -> M S B) : M S B :=
  fun s => match m s with
           | (Ok a, s') => k a s'
           | (Raise e, s') => (Raise e, s')
           end.
Definition modify {S} (f : S -> S) : M S unit := fun s => (Ok tt, f s).

(** [try: m except Exception as err: h err] *)
Definition catch {S A} (m : M S A) (h : exn -> M S A) : M S A :=
  fun s => match m s with
           | (Ok a, s') => (Ok a, s')
           | (Raise e, s') => h e s'
           end.

(** Binding the positional arguments [args] and the keyword arguments
    [kw] of a call to a function declared with the parameters
    [p1, ..., pn] and a trailing keyword dictionary (no defaults): positional
    arguments fill the parameters from the left, a keyword fills the
    parameter of its name, the remaining keywords are collected in
    [kwargs], and a parameter left unfilled is a [TypeError]. *)
Fixpoint bind_arguments (fname : string) (params : list string)
    (args : list value) (kw : gmap string value)
    : result (list value * gmap string value) :=
  match params, args with
  | [], [] => Ok ([], kw)
  | [], _ :: _ =>
      Raise (TypeError (fname +:+ "() takes fewer positional arguments than were given"))
  | p :: ps, a :: args' =>
      match kw !! p with
      | Some _ =>
          Raise (TypeError (fname +:+ "() got multiple values for argument '" +:+ p +:+ "'"))
      | None =>
          match bind_arguments fname ps args' kw with
          | Ok (vs, rest) => Ok (a :: vs, rest)
          | Raise e => Raise e
          end
      end
  | p :: ps, [] =>
      match kw !! p with
      | Some v =>
          match bind_arguments fname ps [] (delete p kw) with
          | Ok (vs, rest) => Ok (v :: vs, rest)
          | Raise e => Raise e
          end
      | None =>
          Raise (TypeError (fname +:+ "() missing 1 required positional argument: '" +:+ p +:+ "'"))
      end
  end.

End Py.

Notation "x <- m ;; k" := (Py.bind m (fun x => k))
  (at level 100, m at next level, right associativity, only parsing).
Notation "m ;;; k" := (Py.bind m (fun _ => k))
  (at level 100, right associativity, only parsing).

(** ** The schema (store/models.py) *)

(** store/models.py is not part of the sources.  The entities are the ones
    the spec's data model names (a Collection has many Products, a Customer
    has many Orders, an Order has many OrderItems); each record has the
    fields that store/admin.py reads or writes. *)

Module Collection.
(** Modelled from the spec: the Collection model (absent models.py), with
    its primary key and the [title] the admin lists and searches. *)
Record t : Type := { id : Z; title : string }.
End Collection.

Module Product.
(** Modelled from the spec: the Product model (absent models.py), with its
    primary key, the fields the product admin names, and the foreign key to
    its collection. *)
Record t : Type :=
  { id : Z;
    title : string;
    slug : string;
    unit_price : Z;
    inventory : Z;
    last_update : Z;
    collection_id : Z }.

Definition with_inventory (v : Z) (p : t) : t :=
  {| id := id p; title := title p; slug := slug p; unit_price := unit_price p;
     inventory := v; last_update := last_update p;
     collection_id := collection_id p |}.
End Product.

Module Customer.
(** Modelled from the spec: the Customer model (absent models.py), with its
    primary key and the fields the customer admin lists; [first_name] and
    [last_name] are the names of the customer's user, which the admin joins
    to every customer row ([list_select_related]) and orders by. *)
Record t : Type :=
  { id : Z; first_name : string; last_name : string; membership : string }.
End Customer.

Module Order.
(** Modelled from the spec: the Order model (absent models.py), with its
    primary key, the fields the order admin names, and the foreign key to
    its customer. *)
Record t : Type :=
  { id : Z; placed_at : Z; payment_status : string; customer_id : Z }.
End Order.

Module OrderItem.
(** Modelled from the spec: the OrderItem model (absent models.py): a line
    of an order that references a product. *)
Record t : Type :=
  { id : Z; order_id : Z; product_id : Z; quantity : Z; unit_price : Z }.
End OrderItem.

(** ** The ORM: tables, query sets, UPDATE, annotate(Count) *)

Module Orm.

(** The database: one table per model, and whether the backend currently
    executes statements (a statement sent to a backend that does not raises
    [DatabaseError]). *)
Record Database : Type :=
  { store_collection : list Collection.t;
    store_product : list Product.t;
    store_customer : list Customer.t;
    store_order : list Order.t;
    store_orderitem : list OrderItem.t;
    accepting : bool }.

Definition with_products (ps : list Product.t) (d : Database) : Database :=
  {| store_collection := store_collection d;
     store_product := ps;
     store_customer := store_customer d;
     store_order := store_order d;
     store_orderitem := store_orderitem d;
     accepting := accepting d |}.

(** Field lookups on Product that the admin uses: the changelist selects
    rows by primary key, [InventoryFilter] by [inventory__lt], and the
    count links by [collection_id]. *)
Inductive Lookup : Type :=
| pk__in (ids : list Z)
| inventory__lt (bound : Z)
| collection_id__exact (c : Z).

(** A lazy query set over Product: the lookups of its [filter] calls,
    taken in conjunction. *)
Definition QuerySet : Type := list Lookup.

Definition all : QuerySet := [].

Definition holds (l : Lookup) (p : Product.t) : bool :=
  match l with
  | pk__in ids => existsb (Z.eqb (Product.id p)) ids
  | inventory__lt bound => Product.inventory p <? bound
  | collection_id__exact c => Product.collection_id p =? c
  end.

Definition selects (qs : QuerySet) (p : Product.t) : bool :=
  forallb (fun l => holds l p) qs.

(** [queryset.filter(lookup)] *)
Definition filter (l : Lookup) (qs : QuerySet) : QuerySet := (qs ++ [l])%list.

(** Evaluating the query set: SELECT ... WHERE. *)
Definition rows (qs : QuerySet) (table : list Product.t) : list Product.t :=
  List.filter (selects qs) table.

(** UPDATE store_product SET inventory = v WHERE ...: the new table and
    the number of rows matched. *)
Definition sql_update_inventory (qs : QuerySet) (v : Z) (table : list Product.t)
    : list Product.t * nat :=
  (map (fun p => if selects qs p then Product.with_inventory v p else p) table,
   length (rows qs table)).

(** LEFT OUTER JOIN: every left row appears, paired with each matching
    right row, or once with NULL when there is none. *)
Definition left_outer_join {A B : Type} (on : A -> B -> bool)
    (left : list A) (right : list B) : list (A * option B) :=
  flat_map (fun a =>
              match List.filter (on a) right with
              | [] => [(a, None)]
              | bs => map (fun b => (a, Some b)) bs
              end) left.

(** COUNT(column) counts the rows whose column is not NULL. *)
Definition counted {B : Type} (b : option B) : Z :=
  match b with Some _ => 1 | None => 0 end.

(** One step of GROUP BY key with COUNT(column): the row joins the group of
    its key, or opens a new group when the key is new. *)
Fixpoint group_insert {A B : Type} (key : A -> Z) (a : A) (b : option B)
    (groups : list (A * Z)) : list (A * Z) :=
  match groups with
  | [] => [(a, counted b)]
  | (a', n) :: rest =>
      if key a' =? key a
      then (a', n + counted b) :: rest
      else (a', n) :: group_insert key a b rest
  end.

Definition group_count {A B : Type} (key : A -> Z)
    (joined : list (A * option B)) : list (A * Z) :=
  fold_left (fun groups row => group_insert key (fst row) (snd row) groups)
            joined [].

(** [parents.annotate(n=Count(relation))]: the parent rows, each with the
    count of the non-NULL child rows joined to it. *)
Definition annotate_Count {A B : Type} (pk : A -> Z) (fk : B -> Z)
    (parents : list A) (children : list B) : list (A * Z) :=
  group_count pk (left_outer_join (fun a b => fk b =? pk a) parents children).

(** ORDER BY: the rows sorted by [le]; rows that tie keep the order they
    came in (SQL leaves the order of ties open). *)
Fixpoint insert_sorted {A : Type} (le : A -> A -> bool) (x : A) (l : list A) : list A :=
  match l with
  | [] => [x]
  | y :: rest => if le x y then x :: l else y :: insert_sorted le x rest
  end.

Definition order_by {A : Type} (le : A -> A -> bool) (l : list A) : list A :=
  fold_right (insert_sorted le) [] l.

End Orm.

(** ** urllib.parse and django.utils.html *)

Module Web.

Definition char (n : nat) : ascii := ascii_of_nat n.
Definition dquote : string := String (char 34) EmptyString.

Definition between (lo hi : N) (c : ascii) : bool :=
  ((lo <=? N_of_ascii c) && (N_of_ascii c <=? hi))%N.

(** The characters [quote] never escapes: letters, digits and [_.-~]. *)
Definition always_safe (c : ascii) : bool :=
  between 65 90 c || between 97 122 c || between 48 57 c
  || (N_of_ascii c =? 95)%N || (N_of_ascii c =? 46)%N
  || (N_of_ascii c =? 45)%N || (N_of_ascii c =? 126)%N.

Definition hex_digit (n : N) : ascii :=
  if (n <? 10)%N then ascii_of_N (48 + n) else ascii_of_N (55 + n).

(** [quote_plus] on one byte: kept when safe, a space becomes a plus sign,
    anything else becomes a percent sign and two upper-case hex digits. *)
Definition quote_plus_char (c : ascii) : string :=
  if always_safe c then String c EmptyString
  else if (N_of_ascii c =? 32)%N then "+"
  else String "%" (String (hex_digit (N_of_ascii c / 16))
                  (String (hex_digit (N_of_ascii c mod 16)) EmptyString)).

Fixpoint quote_plus (s : string) : string :=
  match s with
  | EmptyString => EmptyString
  | String c rest => quote_plus_char c +:+ quote_plus rest
  end.

(** [urlencode(query)]: the quoted pairs [k=v], joined by ampersands, in
    the order of the dictionary. *)
Fixpoint urlencode (query : list (string * string)) : string :=
  match query with
  | [] => EmptyString
  | [(k, v)] => quote_plus k +:+ "=" +:+ quote_plus v
  | (k, v) :: rest => quote_plus k +:+ "=" +:+ quote_plus v +:+ "&" +:+ urlencode rest
  end.

(** [html.escape] on one character. *)
Definition escape_char (c : ascii) : string :=
  if (N_of_ascii c =? 38)%N then "&amp;"
  else if (N_of_ascii c =? 60)%N then "&lt;"
  else if (N_of_ascii c =? 62)%N then "&gt;"
  else if (N_of_ascii c =? 34)%N then "&quot;"
  else if (N_of_ascii c =? 39)%N then "&#x27;"
  else String c EmptyString.

Fixpoint escape (s : string) : string :=
  match s with
  | EmptyString => EmptyString
  | String c rest => escape_char c +:+ escape rest
  end.

(** [template.format(args)] for a template whose only replacement fields are
    the automatic ones, written as an opening and a closing brace: each takes
    the next argument, and running out of arguments is an [IndexError]
    (here [None]). *)
Fixpoint format (template : string) (args : list string) : option string :=
  match template with
  | EmptyString => Some EmptyString
  | String c rest =>
      match rest with
      | String c' rest' =>
          if ((N_of_ascii c =? 123) && (N_of_ascii c' =? 125))%N
          then match args with
               | a :: args' =>
                   match format rest' args' with
                   | Some out => Some (a +:+ out)
                   | None => None
                   end
               | [] => None
               end
          else match format rest args with
               | Some out => Some (String c out)
               | None => None
               end
      | EmptyString => Some (String c EmptyString)
      end
  end.

(** [format_html(template, args)]: every argument is escaped, then
    substituted. *)
Definition format_html (template : string) (args : list string) : option string :=
  format template (map escape args).

(** Whether every character of a string satisfies [p]. *)
Fixpoint every (p : ascii -> bool) (s : string) : bool :=
  match s with
  | EmptyString => true
  | String c rest => p c && every p rest
  end.

(** The characters of a decimal numeral: the ten digits and the minus
    sign. *)
Definition numeral_char (c : ascii) : bool :=
  between 48 57 c || (N_of_ascii c =? 45)%N.

End Web.

(** ** The admin process: database, messages, standard output *)

Module Messages.
(** django.contrib.messages levels. *)
Inductive Level : Type := DEBUG | INFO | SUCCESS | WARNING | ERROR.

Definition level_value (l : Level) : Z :=
  match l with
  | DEBUG => 10 | INFO => 20 | SUCCESS => 25 | WARNING => 30 | ERROR => 40
  end.

Record Message : Type := { level : Level; message : string }.
End Messages.

Record World : Type :=
  { db : Orm.Database;
    shown : list Messages.Message;   (* the messages queued for the user *)
    stdout : string }.

Definition with_db (d : Orm.Database) (w : World) : World :=
  {| db := d; shown := shown w; stdout := stdout w |}.
Definition with_shown (m : list Messages.Message) (w : World) : World :=
  {| db := db w; shown := m; stdout := stdout w |}.
Definition with_stdout (out : string) (w : World) : World :=
  {| db := db w; shown := shown w; stdout := out |}.

(** [queryset.update(inventory=v)]: runs the UPDATE and returns the number
    of rows matched; a backend that does not take the statement raises. *)
Definition QuerySet_update (qs : Orm.QuerySet) (v : Z) : Py.M World nat :=
  fun w =>
    if Orm.accepting (db w)
    then let r := Orm.sql_update_inventory qs v (Orm.store_product (db w)) in
         (Py.Ok (snd r), with_db (Orm.with_products (fst r) (db w)) w)
    else (Py.Raise Py.DatabaseError, w).

(** [ModelAdmin.message_user(request, message, level)] *)
Definition message_user (msg : string) (l : Messages.Level) : Py.M World unit :=
  Py.modify (fun w =>
    with_shown (shown w ++ [{| Messages.level := l; Messages.message := msg |}])%list w).

(** [print(v)] *)
Definition print (v : Py.value) : Py.M World unit :=
  Py.modify (fun w => with_stdout (stdout w +:+ Py.str v +:+ String (Web.char 10) EmptyString) w).

(** ** django.contrib.admin: the changelist's use of a list filter *)

Module ChangeList.
(** A filter whose [queryset] method returns [None] leaves the query set as
    it is; any other return value replaces it. *)
Definition apply_filter (spec : Orm.QuerySet -> option Orm.QuerySet)
    (qs : Orm.QuerySet) : Orm.QuerySet :=
  match spec qs with
  | Some new_qs => new_qs
  | None => qs
  end.
End ChangeList.

(** ** store/admin.py *)

Module CollectionAdmin.
Section Urls.
(** The URLconf: the path that [reverse] gives a URL name. *)
Variable reverse : string -> string.

Definition link_template : string :=
  "<a href=" +:+ Web.dquote +:+ "{}" +:+ Web.dquote +:+ ">{}</a>".

(** The row is a collection together with its [products_count]
    annotation. *)
Definition products_count (collection : Collection.t * Z) : option string :=
  let url :=
    reverse "admin:store_product_changelist"
    +:+ "?"
    +:+ Web.urlencode [("collection_id", Py.str_int (Collection.id (fst collection)))] in
  Web.format_html link_template [url; Py.str_int (snd collection)].
End Urls.

(** The rows of the changelist's query set: the collections, annotated with
    [products_count = Count('products')]. *)
Definition get_queryset (d : Orm.Database) : list (Collection.t * Z) :=
  Orm.annotate_Count Collection.id Product.collection_id
    (Orm.store_collection d) (Orm.store_product d).
End CollectionAdmin.

Module InventoryFilter.
Definition title : string := "inventory".
Definition parameter_name : string := "inventory".

Definition lookups : list (string * string) := [("<10", "Low")].

(** [self.value()]: the request's value for [parameter_name], if any. *)
Definition value (params : gmap string string) : option string :=
  params !! parameter_name.

Definition queryset (value : option string) (queryset : Orm.QuerySet)
    : option Orm.QuerySet :=
  match value with
  | Some v =>
      if String.eqb v "<10"
      then Some (Orm.filter (Orm.inventory__lt 10) queryset)
      else None
  | None => None
  end.
End InventoryFilter.

Module ProductAdmin.
Definition list_per_page : Z := 10.

(** [product.collection.title]: the title of the collection row that the
    product's foreign key designates; [None] stands for the
    [RelatedObjectDoesNotExist] that a dangling key raises. *)
Definition collection_title (d : Orm.Database) (product : Product.t) : option string :=
  match List.find (fun c => Collection.id c =? Product.collection_id product)
                  (Orm.store_collection d) with
  | Some c => Some (Collection.title c)
  | None => None
  end.

Definition inventory_status (product : Product.t) : string :=
  if Product.inventory product <? 10 then "Low" else "OK".

Definition clear_inventory (quaryset : Orm.QuerySet) : Py.M World unit :=
  updated_count <- QuerySet_update quaryset 0 ;;
  message_user
    (Py.str_int (Z.of_nat updated_count) +:+ " products were successfully updated.")
    Messages.ERROR.
End ProductAdmin.

Module CustomerAdmin.
Section Urls.
Variable reverse : string -> string.

Definition orders_count (customer : Customer.t * Z) : option string :=
  let url :=
    reverse "admin:store_order_changelist"
    +:+ "?"
    +:+ Web.urlencode [("customer_id", Py.str_int (Customer.id (fst customer)))] in
  Web.format_html CollectionAdmin.link_template [url; Py.str_int (snd customer)].
End Urls.

(** [ordering = ['user__first_name', 'user__last_name']]: ascending by the
    user's first name, then by the last name (names compared byte by byte;
    the collation is the database's). *)
Definition ordering (c c' : Customer.t) : bool :=
  match String.compare (Customer.first_name c) (Customer.first_name c') with
  | Lt => true
  | Gt => false
  | Eq => String.leb (Customer.last_name c) (Customer.last_name c')
  end.

(** The rows of the changelist's query set: [ModelAdmin.get_queryset]
    orders the customers by [ordering], and each is annotated with
    [orders_count = Count('order')]. *)
Definition get_queryset (d : Orm.Database) : list (Customer.t * Z) :=
  Orm.order_by (fun row row' => ordering (fst row) (fst row'))
    (Orm.annotate_Count Customer.id Order.customer_id
       (Orm.store_customer d) (Orm.store_order d)).
End CustomerAdmin.

(** ** django.forms.formsets, as the admin instantiates it for an inline *)

Module Formsets.

Definition DEFAULT_MAX_NUM : Z := 1000.

(** The formset class of an inline: the numbers and flags of
    [formset_factory], and the two permissions that the form class of the
    admin closes over. *)
Record Options : Type :=
  { extra : Z;
    min_num : Z;
    max_num : Z;
    validate_min : bool;
    validate_max : bool;
    absolute_max : Z;
    can_delete : bool;
    can_add : bool;
    can_change : bool }.

(** [InlineModelAdmin.get_formset] hands the inline's [extra], [min_num] and
    [max_num], and whether the user may delete, to [inlineformset_factory];
    it passes no [validate_min], [validate_max] or [absolute_max], which
    keep their defaults; the form class it builds knows whether the user may
    add and may change. *)
Definition inlineformset_factory (extra min_num max_num : Z)
    (can_delete can_add can_change : bool) : Options :=
  {| extra := extra; min_num := min_num; max_num := max_num;
     validate_min := false; validate_max := false;
     absolute_max := max_num + DEFAULT_MAX_NUM;
     can_delete := can_delete; can_add := can_add; can_change := can_change |}.


(** One submitted form: the primary key in its hidden field (if any),
    whether its data differs from what was rendered, whether its DELETE box
    is ticked, and whether its data passes the fields' validation. *)
Record Form : Type :=
  { pk : option Z; has_changed : bool; DELETE : bool; cleans : bool }.

(** A bound formset: the management form's INITIAL_FORMS, and the forms that
    were posted (TOTAL_FORMS of them).  Both come from the client: the first
    INITIAL_FORMS forms are taken as edits of existing children. *)
Record Bound : Type := { INITIAL_FORMS : nat; posted : list Form }.

Definition TOTAL_FORMS (b : Bound) : Z := Z.of_nat (length (posted b)).

(** The forms the formset builds: at most [absolute_max]. *)
Definition forms (o : Options) (b : Bound) : list Form :=
  firstn (Z.to_nat (absolute_max o)) (posted b).

(** The child that the form at index [i] edits: one of the parent's
    children ([existing], by primary key), named by the hidden field of a
    form among the initial ones.  Any other form stands for a new child. *)
Definition instance (existing : list Z) (b : Bound) (i : nat) (f : Form) : option Z :=
  if (i <? INITIAL_FORMS b)%nat
  then match pk f with
       | Some k => if existsb (Z.eqb k) existing then Some k else None
       | None => None
       end
  else None.

(** [has_changed] of the admin's form class: an edit of an existing child
    counts only for a user who may change, the data of a new child only for
    a user who may add. *)
Definition changed (o : Options) (existing : list Z) (b : Bound) (i : nat) (f : Form)
    : bool :=
  match instance existing b i f with
  | Some _ => can_change o && has_changed f
  | None => can_add o && has_changed f
  end.

Definition should_delete (o : Options) (f : Form) : bool :=
  can_delete o && DELETE f.

(** A form beyond the initial ones and beyond [min_num] may be left empty. *)
Definition empty_permitted (o : Options) (b : Bound) (i : nat) : bool :=
  (INITIAL_FORMS b <=? i)%nat && (min_num o <=? Z.of_nat i).

Definition form_is_valid (o : Options) (existing : list Z) (b : Bound)
    (i : nat) (f : Form) : bool :=
  if empty_permitted o b i && negb (changed o existing b i f) then true else cleans f.

(** For a user who may not change, the admin skips the validation of the
    initial forms (their data is not posted). *)
Definition view_only (o : Options) (b : Bound) (i : nat) : bool :=
  negb (can_change o) && (i <? INITIAL_FORMS b)%nat.

Fixpoint count_from {A : Type} (p : nat -> A -> bool) (i : nat) (l : list A) : Z :=
  match l with
  | [] => 0
  | x :: rest => (if p i x then 1 else 0) + count_from p (S i) rest
  end.

Fixpoint all_from {A : Type} (p : nat -> A -> bool) (i : nat) (l : list A) : bool :=
  match l with
  | [] => true
  | x :: rest => p i x && all_from p (S i) rest
  end.

(** Every form that is not due to be deleted is valid. *)
Definition forms_valid (o : Options) (existing : list Z) (b : Bound) : bool :=
  all_from (fun i f =>
              should_delete o f || view_only o b i || form_is_valid o existing b i f)
           0 (forms o b).

(** [len(self.deleted_forms)] as [full_clean] reads it: none unless the
    forms are valid and deletion is allowed; an extra form that has not
    changed is not counted. *)
Definition deleted_forms (o : Options) (existing : list Z) (b : Bound) : Z :=
  if forms_valid o existing b && can_delete o
  then count_from (fun i f =>
                     ((i <? INITIAL_FORMS b)%nat || changed o existing b i f) && DELETE f)
                  0 (forms o b)
  else 0.

Definition empty_forms_count (o : Options) (existing : list Z) (b : Bound) : Z :=
  count_from (fun i f =>
                negb (changed o existing b i f) && (INITIAL_FORMS b <=? i)%nat)
             0 (forms o b).

(** The formset-level checks of [full_clean]. *)
Definition non_form_errors (o : Options) (existing : list Z) (b : Bound) : bool :=
  let total := Z.of_nat (length (forms o b)) in
  (validate_max o && (max_num o <? total - deleted_forms o existing b))
  || (absolute_max o <? TOTAL_FORMS b)
  || (validate_min o
      && (total - deleted_forms o existing b - empty_forms_count o existing b
          <? min_num o)).

(** [is_valid]: the forms are valid, and there is no formset-level error. *)
Definition is_valid (o : Options) (existing : list Z) (b : Bound) : bool :=
  forms_valid o existing b && negb (non_form_errors o existing b).

(** Whether [save] deletes the child [k]: an initial form edits it and is
    due to be deleted. *)
Definition deleted_by_save (o : Options) (existing : list Z) (b : Bound) (k : Z) : bool :=
  0 <? count_from (fun i f =>
                     match instance existing b i f with
                     | Some k' => (k' =? k) && should_delete o f
                     | None => false
                     end)
                  0 (forms o b).

(** The children that [save] creates: one for each form beyond the initial
    ones that has changed and is not due to be deleted. *)
Definition created_by_save (o : Options) (existing : list Z) (b : Bound) : Z :=
  count_from (fun i f =>
                (INITIAL_FORMS b <=? i)%nat && changed o existing b i f
                && negb (should_delete o f))
             0 (forms o b).

(** The number of children of the parent after [save]: those it had and
    that are not deleted (a child that no form names stays), and those
    created. *)
Definition children_after_save (o : Options) (existing : list Z) (b : Bound) : Z :=
  Z.of_nat (length (List.filter (fun k => negb (deleted_by_save o existing b k)) existing))
  + created_by_save o existing b.

End Formsets.

(** The permissions of the user on order items, as the inline asks for
    them. *)
Record Permissions : Type :=
  { has_add_permission : bool;
    has_change_permission : bool;
    has_delete_permission : bool }.

Module OrderItemInline.
Definition min_num : Z := 1.
Definition max_num : Z := 10.
Definition extra : Z := 0.

(** [ModelAdmin.get_inline_instances] sets the [max_num] of the inline
    instance to 0 for a user who may not add. *)
Definition instance_max_num (user : Permissions) : Z :=
  if has_add_permission user then max_num else 0.

(** The formset class the admin builds for this inline and this user. *)
Definition formset (user : Permissions) : Formsets.Options :=
  Formsets.inlineformset_factory extra min_num (instance_max_num user)
    (has_delete_permission user) (has_add_permission user)
    (has_change_permission user).
End OrderItemInline.

(** ** django.dispatch *)

Module Dispatch.

Definition Receiver : Type :=
  list Py.value -> gmap string Py.value -> Py.M World Py.value.

(** The call a signal makes to one receiver: no positional argument, the
    keywords [signal] and [sender], then the named arguments of the event.
    A named argument called [signal] is passed twice, which is a [TypeError]
    at the call. *)
Definition call_receiver (signal sender : Py.value) (named : gmap string Py.value)
    (receiver : Receiver) : Py.M World Py.value :=
  match named !! "signal" with
  | None => receiver [] (<["signal" := signal]> (<["sender" := sender]> named))
  | Some _ =>
      Py.raise (Py.TypeError "got multiple values for keyword argument 'signal'")
  end.

(** The loop of [Signal.send]: the receivers are called in turn; an
    exception of one ends the dispatch. *)
Fixpoint send_each (receivers : list Receiver) (signal sender : Py.value)
    (named : gmap string Py.value) : Py.M World (list Py.value) :=
  match receivers with
  | [] => Py.ret []
  | r :: rest =>
      response <- call_receiver signal sender named r ;;
      responses <- send_each rest signal sender named ;;
      Py.ret (response :: responses)
  end.

(** The loop of [Signal.send_robust]: an exception of a receiver is caught
    and becomes its response. *)
Fixpoint send_robust_each (receivers : list Receiver) (signal sender : Py.value)
    (named : gmap string Py.value) : Py.M World (list (Py.result Py.value)) :=
  match receivers with
  | [] => Py.ret []
  | r :: rest =>
      response <- Py.catch
                    (v <- call_receiver signal sender named r ;; Py.ret (Py.Ok v))
                    (fun err => Py.ret (Py.Raise err)) ;;
      responses <- send_robust_each rest signal sender named ;;
      Py.ret (response :: responses)
  end.

(** [send] and [send_robust] are methods with the parameters [self] and
    [sender] and the dictionary of named arguments: a named argument called
    [self] or [sender] collides with the parameter, and the call of the
    method itself raises [TypeError], to the code that fires the event. *)
Definition collides (named : gmap string Py.value) : option string :=
  match named !! "self", named !! "sender" with
  | Some _, _ => Some "self"
  | None, Some _ => Some "sender"
  | None, None => None
  end.

(** [Signal.send]: an exception of a receiver reaches the sender of the
    event. *)
Definition send (receivers : list Receiver) (signal sender : Py.value)
    (named : gmap string Py.value) : Py.M World (list Py.value) :=
  match collides named with
  | Some p =>
      Py.raise (Py.TypeError ("send() got multiple values for argument '" +:+ p +:+ "'"))
  | None => send_each receivers signal sender named
  end.

(** [Signal.send_robust] *)
Definition send_robust (receivers : list Receiver) (signal sender : Py.value)
    (named : gmap string Py.value) : Py.M World (list (Py.result Py.value)) :=
  match collides named with
  | Some p =>
      Py.raise
        (Py.TypeError ("send_robust() got multiple values for argument '" +:+ p +:+ "'"))
  | None => send_robust_each receivers signal sender named
  end.

End Dispatch.

(** ** core/signals/handlers.py *)

Module Handlers.

(** The body of [on_order_created], once its parameters are bound. *)
Definition on_order_created_body (self : Py.value) (kwargs : gmap string Py.value)
    : Py.M World Py.value :=
  match kwargs !! "order" with
  | Some order => print order ;;; Py.ret Py.PyNone
  | None => Py.raise (Py.KeyError "order")
  end.

(** [def on_order_created(self, **kwargs)]: one parameter, [self], and the
    keyword dictionary. *)
Definition on_order_created : Dispatch.Receiver :=
  fun args kw =>
    match Py.bind_arguments "on_order_created" ["self"] args kw with
    | Py.Ok ([self], kwargs) => on_order_created_body self kwargs
    | Py.Ok _ => Py.raise (Py.TypeError "on_order_created()")
    | Py.Raise e => Py.raise e
    end.

(** Modelled from the spec: store/signals is not part of the sources; the
    spec calls [order_created] an event with one process-wide subscription,
    so it is a signal whose only receiver is the one that the [receiver]
    decorator connects here. *)
Definition order_created : Py.value := Py.PyInstance "Signal" "order_created".
Definition order_created_receivers : list Dispatch.Receiver := [on_order_created].

End Handlers.

(** ** Fixtures *)

Module Fixture.

Definition collection (i : Z) (name : string) : Collection.t :=
  {| Collection.id := i; Collection.title := name |}.

Definition product (i col stock : Z) : Product.t :=
  {| Product.id := i; Product.title := "item"; Product.slug := "item";
     Product.unit_price := 100; Product.inventory := stock;
     Product.last_update := 0; Product.collection_id := col |}.

Definition customer (i : Z) : Customer.t :=
  {| Customer.id := i; Customer.first_name := "A"; Customer.last_name := "B";
     Customer.membership := "B" |}.

Definition order (i cust : Z) : Order.t :=
  {| Order.id := i; Order.placed_at := 0; Order.payment_status := "P";
     Order.customer_id := cust |}.

(** Three collections with 0, 1 and 3 products; three customers with 0, 1
    and 2 orders. *)
Definition shop (up : bool) : Orm.Database :=
  {| Orm.store_collection :=
       [collection 1 "empty"; collection 2 "single"; collection 3 "several"];
     Orm.store_product :=
       [product 1 2 5; product 2 3 20; product 3 3 9; product 4 3 10];
     Orm.store_customer := [customer 1; customer 2; customer 3];
     Orm.store_order := [order 1 3; order 2 2; order 3 3];
     Orm.store_orderitem := [];
     Orm.accepting := up |}.

Definition world (up : bool) : World :=
  {| db := shop up; shown := []; stdout := EmptyString |}.

Definition an_order : Py.value := Py.PyInstance "Order" "Order object (1)".






(** Customers whose users' names are not in the order of the table. *)
Definition customer_named (i : Z) (first last : string) : Customer.t :=
  {| Customer.id := i; Customer.first_name := first; Customer.last_name := last;
     Customer.membership := "B" |}.

Definition club : Orm.Database :=
  {| Orm.store_collection :=
       [collection 1 "empty"; collection 2 "single"; collection 3 "several"];
     Orm.store_product :=
       [product 1 2 5; product 2 3 20; product 3 3 9; product 4 3 10];
     Orm.store_customer :=
       [customer_named 1 "Zoe" "Young"; customer_named 2 "Ann" "Webb";
        customer_named 3 "Ann" "Adams"];
     Orm.store_order := [order 1 3; order 2 2; order 3 3];
     Orm.store_orderitem := [];
     Orm.accepting := true |}.

End Fixture.

(** * Properties *)

(** ** The inventory threshold: display column and list filter *)

(** C2: the [inventory_status] column is ['Low'] exactly when the product's
    inventory is strictly below 10, and ['OK'] exactly when it is 10 or
    more. *)
Theorem inventory_status_threshold (product : Product.t) :
  (ProductAdmin.inventory_status product = "Low"
     <-> Product.inventory product < 10)
  /\ (ProductAdmin.inventory_status product = "OK"
     <-> 10 <= Product.inventory product).
Proof.
  unfold ProductAdmin.inventory_status.
  destruct (Z.ltb_spec (Product.inventory product) 10) as [Hlt | Hge].
  - split; split; intros H; try reflexivity; try lia; discriminate H.
  - split; split; intros H; try reflexivity; try lia; discriminate H.
Qed.

Lemma inventory_status_Low_ltb (product : Product.t) :
  String.eqb (ProductAdmin.inventory_status product) "Low"
  = (Product.inventory product <? 10).
Proof.
  unfold ProductAdmin.inventory_status.
  destruct (Product.inventory product <? 10); reflexivity.
Qed.

Lemma selects_filter (l : Orm.Lookup) (qs : Orm.QuerySet) (p : Product.t) :
  Orm.selects (Orm.filter l qs) p = Orm.selects qs p && Orm.holds l p.
Proof.
  unfold Orm.selects, Orm.filter.
  rewrite forallb_app. simpl. now rewrite andb_true_r.
Qed.

(** C3: with the value ['<10'] the inventory filter returns a query set that
    selects a product if and only if the query set it was given selects it
    and the [inventory_status] column shows ['Low'] for it; so on every
    table the filtered rows are the rows whose status is ['Low']. *)
Theorem inventory_filter_agrees_with_status
    (queryset : Orm.QuerySet) (table : list Product.t) (product : Product.t) :
  exists low : Orm.QuerySet,
    InventoryFilter.queryset (Some "<10") queryset = Some low
    /\ (Orm.selects low product = true
        <-> Orm.selects queryset product = true
            /\ ProductAdmin.inventory_status product = "Low")
    /\ (In product (Orm.rows low table)
        <-> In product (Orm.rows queryset table)
            /\ ProductAdmin.inventory_status product = "Low").
Proof.
  exists (Orm.filter (Orm.inventory__lt 10) queryset).
  assert (Hsel : Orm.selects (Orm.filter (Orm.inventory__lt 10) queryset) product = true
                 <-> Orm.selects queryset product = true
                     /\ ProductAdmin.inventory_status product = "Low").
  { rewrite selects_filter, andb_true_iff. simpl.
    rewrite <- inventory_status_Low_ltb.
    now rewrite String.eqb_eq. }
  split; [reflexivity | split; [exact Hsel |]].
  unfold Orm.rows. rewrite !filter_In. tauto.
Qed.

(** C9: [InventoryFilter.queryset] returns [None] for every value other than
    the exact string ['<10'] (the absent value included, which is the value
    of a request without the parameter), and the changelist then keeps the
    query set it had; for ['<10'] it returns the query set restricted by
    [inventory__lt=10]. *)
Theorem inventory_filter_none_unless_lt10
    (value : option string) (queryset : Orm.QuerySet) :
  (InventoryFilter.queryset value queryset = None <-> value <> Some "<10")
  /\ (InventoryFilter.queryset value queryset = None
      -> ChangeList.apply_filter (InventoryFilter.queryset value) queryset = queryset)
  /\ InventoryFilter.queryset (InventoryFilter.value ∅) queryset = None
  /\ InventoryFilter.queryset (Some "<10") queryset
     = Some (Orm.filter (Orm.inventory__lt 10) queryset).
Proof.
  split; [| split; [| split]].
  - unfold InventoryFilter.queryset.
    destruct value as [v |].
    + destruct (String.eqb_spec v "<10") as [-> | Hne].
      * split; [discriminate | intros H; now elim H].
      * split; [intros _ H; injection H as H; contradiction | reflexivity].
    + split; [discriminate | reflexivity].
  - intros H. unfold ChangeList.apply_filter. now rewrite H.
  - reflexivity.
  - reflexivity.
Qed.

(** ** The bulk action *)

Lemma update_relates (qs : Orm.QuerySet) (v : Z) (table : list Product.t) :
  Forall2 (fun p p' =>
             (Orm.selects qs p = true -> p' = Product.with_inventory v p)
             /\ (Orm.selects qs p = false -> p' = p))
          table (fst (Orm.sql_update_inventory qs v table)).
Proof.
  simpl. induction table as [| p table IH]; simpl.
  - constructor.
  - constructor; [| exact IH].
    destruct (Orm.selects qs p); split; intros H; try reflexivity; discriminate H.
Qed.

Lemma clear_inventory_runs (quaryset : Orm.QuerySet) (w : World) :
  Orm.accepting (db w) = true ->
  ProductAdmin.clear_inventory quaryset w
  = (Py.Ok tt,
     with_shown
       (shown w ++
        [{| Messages.level := Messages.ERROR;
            Messages.message :=
              Py.str_int (Z.of_nat (length (Orm.rows quaryset (Orm.store_product (db w)))))
              +:+ " products were successfully updated." |}])%list
       (with_db (Orm.with_products
                   (fst (Orm.sql_update_inventory quaryset 0 (Orm.store_product (db w))))
                   (db w)) w)).
Proof.
  intros Hup.
  unfold ProductAdmin.clear_inventory, Py.bind, QuerySet_update.
  rewrite Hup. reflexivity.
Qed.

Lemma clear_inventory_fails (quaryset : Orm.QuerySet) (w : World) :
  Orm.accepting (db w) = false ->
  ProductAdmin.clear_inventory quaryset w = (Py.Raise Py.DatabaseError, w).
Proof.
  intros Hdown.
  unfold ProductAdmin.clear_inventory, Py.bind, QuerySet_update.
  now rewrite Hdown.
Qed.

(** C1: when the backend takes the UPDATE, [clear_inventory] returns, and
    row by row the product table afterwards has inventory 0 (and nothing
    else changed) where the query set selects the product, and the very same
    row where it does not. *)
Theorem clear_inventory_zeroes_selected (quaryset : Orm.QuerySet) (w : World) :
  Orm.accepting (db w) = true ->
  exists w' : World,
    ProductAdmin.clear_inventory quaryset w = (Py.Ok tt, w')
    /\ Forall2 (fun p p' =>
                  (Orm.selects quaryset p = true ->
                     Product.inventory p' = 0 /\ p' = Product.with_inventory 0 p)
                  /\ (Orm.selects quaryset p = false -> p' = p))
               (Orm.store_product (db w)) (Orm.store_product (db w')).
Proof.
  intros Hup. eexists. split.
  - apply clear_inventory_runs, Hup.
  - simpl.
    eapply Forall2_impl; [apply (update_relates quaryset 0) |].
    intros p p' [Hsel Hnot]. split; [| exact Hnot].
    intros H. rewrite (Hsel H). split; reflexivity.
Qed.

Lemma clear_inventory_zeroes_selected_witness :
  Orm.accepting (db (Fixture.world true)) = true
  /\ exists w' : World,
       ProductAdmin.clear_inventory [Orm.pk__in [1; 3]] (Fixture.world true)
       = (Py.Ok tt, w')
       /\ Forall2 (fun p p' =>
                     (Orm.selects [Orm.pk__in [1; 3]] p = true ->
                        Product.inventory p' = 0 /\ p' = Product.with_inventory 0 p)
                     /\ (Orm.selects [Orm.pk__in [1; 3]] p = false -> p' = p))
                  (Orm.store_product (db (Fixture.world true)))
                  (Orm.store_product (db w')).
Proof.
  split; [reflexivity |].
  apply (clear_inventory_zeroes_selected [Orm.pk__in [1; 3]] (Fixture.world true)).
  reflexivity.
Defined.

(** C5, as amended: whenever the UPDATE is taken by the backend, whatever
    the number of rows it matches, [clear_inventory] queues exactly one more
    message, at level ERROR, whose text is that number followed by
    [products were successfully updated.] *)
Theorem clear_inventory_reports_at_error_level (quaryset : Orm.QuerySet) (w : World) :
  Orm.accepting (db w) = true ->
  exists w' : World,
    ProductAdmin.clear_inventory quaryset w = (Py.Ok tt, w')
    /\ shown w'
       = (shown w ++
          [{| Messages.level := Messages.ERROR;
              Messages.message :=
                Py.str_int (Z.of_nat (length (Orm.rows quaryset (Orm.store_product (db w)))))
                +:+ " products were successfully updated." |}])%list.
Proof.
  intros Hup. eexists. split.
  - apply clear_inventory_runs, Hup.
  - reflexivity.
Qed.

Lemma clear_inventory_reports_at_error_level_witness :
  Orm.accepting (db (Fixture.world true)) = true
  /\ exists w' : World,
       ProductAdmin.clear_inventory [Orm.pk__in []] (Fixture.world true) = (Py.Ok tt, w')
       /\ shown w'
          = (shown (Fixture.world true) ++
             [{| Messages.level := Messages.ERROR;
                 Messages.message :=
                   Py.str_int (Z.of_nat (length (Orm.rows [Orm.pk__in []]
                                  (Orm.store_product (db (Fixture.world true))))))
                   +:+ " products were successfully updated." |}])%list.
Proof.
  split; [reflexivity |].
  apply (clear_inventory_reports_at_error_level [Orm.pk__in []] (Fixture.world true)).
  reflexivity.
Defined.

(** C5, as stated, fails when the UPDATE does not succeed: the exception of
    [update] leaves [clear_inventory] before [message_user] is reached, and
    no message is queued. *)
Lemma clear_inventory_failed_update_shows_nothing :
  ProductAdmin.clear_inventory [Orm.pk__in [1; 3]] (Fixture.world false)
  = (Py.Raise Py.DatabaseError, Fixture.world false)
  /\ shown (snd (ProductAdmin.clear_inventory [Orm.pk__in [1; 3]] (Fixture.world false)))
     = [].
Proof. split; reflexivity. Qed.

(** ** The count annotations *)

Section AnnotateCount.
Context {A B : Type} (pk : A -> Z) (fk : B -> Z).

(** No group of [groups] has the key of [a]. *)
Local Abbreviation fresh_for a groups :=
  (Forall (fun g : A * Z => pk (fst g) <> pk a) groups).

Lemma group_insert_fresh (a : A) (b : option B) (groups : list (A * Z)) :
  fresh_for a groups ->
  Orm.group_insert pk a b groups = (groups ++ [(a, Orm.counted b)])%list.
Proof.
  induction 1 as [| [a' n] groups Hne _ IH]; simpl.
  - reflexivity.
  - simpl in Hne. apply Z.eqb_neq in Hne. rewrite Hne. now rewrite IH.
Qed.

Lemma group_insert_found (a : A) (b : option B) (n : Z) (pre post : list (A * Z)) :
  fresh_for a pre ->
  Orm.group_insert pk a b (pre ++ (a, n) :: post)
  = (pre ++ (a, n + Orm.counted b) :: post)%list.
Proof.
  induction 1 as [| [a' m] pre Hne _ IH]; simpl.
  - now rewrite Z.eqb_refl.
  - simpl in Hne. apply Z.eqb_neq in Hne. rewrite Hne. now rewrite IH.
Qed.

Lemma group_count_matches (a : A) (bs : list B) (n : Z) (pre : list (A * Z)) :
  fresh_for a pre ->
  fold_left (fun groups row => Orm.group_insert pk (fst row) (snd row) groups)
            (map (fun b => (a, Some b)) bs) (pre ++ [(a, n)])%list
  = (pre ++ [(a, n + Z.of_nat (length bs))])%list.
Proof.
  intros Hpre. revert n.
  induction bs as [| b bs IH]; intros n; simpl fold_left.
  - now rewrite Z.add_0_r.
  - rewrite (group_insert_found a (Some b) n pre [] Hpre).
    rewrite IH. simpl Orm.counted. simpl length.
    do 3 f_equal. lia.
Qed.

Lemma group_count_parent (a : A) (children : list B) (pre : list (A * Z)) :
  fresh_for a pre ->
  fold_left (fun groups row => Orm.group_insert pk (fst row) (snd row) groups)
            (match List.filter (fun b => fk b =? pk a) children with
             | [] => [(a, None)]
             | bs => map (fun b => (a, Some b)) bs
             end) pre
  = (pre ++ [(a, Z.of_nat (length (List.filter (fun b => fk b =? pk a) children)))])%list.
Proof.
  intros Hpre.
  destruct (List.filter (fun b => fk b =? pk a) children) as [| b bs].
  - simpl. now apply group_insert_fresh.
  - change (map (fun b0 => (a, Some b0)) (b :: bs))
      with ((a, Some b) :: map (fun b0 => (a, Some b0)) bs).
    simpl fold_left.
    rewrite (group_insert_fresh a (Some b) pre Hpre).
    rewrite group_count_matches by exact Hpre.
    simpl Orm.counted. simpl length. do 3 f_equal. lia.
Qed.

Lemma group_count_join (parents : list A) (children : list B) (acc : list (A * Z)) :
  NoDup (map pk parents) ->
  (forall a, In a parents -> fresh_for a acc) ->
  fold_left (fun groups row => Orm.group_insert pk (fst row) (snd row) groups)
            (Orm.left_outer_join (fun a b => fk b =? pk a) parents children) acc
  = (acc ++ map (fun a => (a, Z.of_nat (length (List.filter (fun b => fk b =? pk a) children))))
               parents)%list.
Proof.
  revert acc.
  induction parents as [| a parents IH]; intros acc Hnodup Hfresh.
  - simpl. now rewrite app_nil_r.
  - unfold Orm.left_outer_join. simpl flat_map.
    rewrite fold_left_app.
    rewrite group_count_parent by (apply Hfresh; now left).
    fold (Orm.left_outer_join (fun a b => fk b =? pk a) parents children).
    simpl in Hnodup. apply NoDup_cons in Hnodup as [Hnotin Hnodup].
    rewrite IH.
    + simpl map. now rewrite <- app_assoc.
    + exact Hnodup.
    + intros a' Hin. apply Forall_app. split.
      * apply Hfresh. now right.
      * constructor; [| constructor]. simpl.
        intros Heq. apply Hnotin. rewrite Heq.
        apply list_elem_of_In, in_map, Hin.
Qed.

Lemma annotate_Count_true_count (parents : list A) (children : list B) :
  NoDup (map pk parents) ->
  Orm.annotate_Count pk fk parents children
  = map (fun a => (a, Z.of_nat (length (List.filter (fun b => fk b =? pk a) children))))
        parents.
Proof.
  intros Hnodup. unfold Orm.annotate_Count, Orm.group_count.
  rewrite group_count_join.
  - reflexivity.
  - exact Hnodup.
  - intros a _. constructor.
Qed.

End AnnotateCount.

Lemma insert_sorted_permutation {A : Type} (le : A -> A -> bool) (x : A) (l : list A) :
  Permutation (Orm.insert_sorted le x l) (x :: l).
Proof.
  induction l as [| y l IH]; simpl.
  - reflexivity.
  - destruct (le x y); [reflexivity |].
    rewrite IH. apply perm_swap.
Qed.

Lemma order_by_permutation {A : Type} (le : A -> A -> bool) (l : list A) :
  Permutation (Orm.order_by le l) l.
Proof.
  induction l as [| x l IH]; simpl.
  - reflexivity.
  - unfold Orm.order_by in *. simpl.
    rewrite insert_sorted_permutation. now rewrite IH.
Qed.

(** C4: in a database whose primary keys are unique, the changelist rows of
    the collection admin are the collections, each annotated with the number
    of products whose collection it is, and those of the customer admin are,
    in the order of the changelist, the customers, each once and each
    annotated with the number of orders placed by that customer. *)
Theorem annotated_counts_are_true_counts (d : Orm.Database) :
  NoDup (map Collection.id (Orm.store_collection d)) ->
  NoDup (map Customer.id (Orm.store_customer d)) ->
  CollectionAdmin.get_queryset d
  = map (fun c =>
           (c, Z.of_nat (length (List.filter
                                   (fun p => Product.collection_id p =? Collection.id c)
                                   (Orm.store_product d)))))
        (Orm.store_collection d)
  /\ Permutation
       (CustomerAdmin.get_queryset d)
       (map (fun c =>
               (c, Z.of_nat (length (List.filter
                                       (fun o => Order.customer_id o =? Customer.id c)
                                       (Orm.store_order d)))))
            (Orm.store_customer d)).
Proof.
  intros Hcollections Hcustomers. split.
  - apply annotate_Count_true_count, Hcollections.
  - unfold CustomerAdmin.get_queryset.
    rewrite order_by_permutation.
    now rewrite (annotate_Count_true_count _ _ _ _ Hcustomers).
Qed.

Lemma annotated_counts_are_true_counts_witness :
  NoDup (map Collection.id (Orm.store_collection Fixture.club))
  /\ NoDup (map Customer.id (Orm.store_customer Fixture.club))
  /\ map snd (CollectionAdmin.get_queryset Fixture.club) = [0; 1; 3]
  /\ Permutation
       (map (fun row => (Customer.id (fst row), snd row))
            (CustomerAdmin.get_queryset Fixture.club))
       [(1, 0); (2, 1); (3, 2)].
Proof.
  assert (H3 : forall a b c : Z, a <> b -> a <> c -> b <> c -> NoDup [a; b; c]).
  { intros a b c Hab Hac Hbc.
    repeat (apply NoDup_cons; split); try apply NoDup_nil_2;
      rewrite ?elem_of_cons, ?elem_of_nil; tauto. }
  assert (Hcol : NoDup (map Collection.id (Orm.store_collection Fixture.club)))
    by (apply H3; discriminate).
  assert (Hcus : NoDup (map Customer.id (Orm.store_customer Fixture.club)))
    by (apply H3; discriminate).
  split; [exact Hcol | split; [exact Hcus |]].
  destruct (annotated_counts_are_true_counts Fixture.club Hcol Hcus)
    as [-> Hperm].
  split; [reflexivity |].
  apply (Permutation_map (fun row => (Customer.id (fst row), snd row))) in Hperm.
  exact Hperm.
Defined.

(** On [Fixture.club] the customer rows come in the order of the users'
    names, not of the table. *)
Example customer_rows_come_by_name :
  map (fun row => (Customer.id (fst row), snd row))
      (CustomerAdmin.get_queryset Fixture.club)
  = [(3, 2); (2, 1); (1, 0)].
Proof. reflexivity. Qed.

(** ** The count links *)

Lemma append_cons (c : ascii) (a b : string) :
  String c a +:+ b = String c (a +:+ b).
Proof. reflexivity. Qed.

Lemma append_assoc (a b c : string) : (a +:+ b) +:+ c = a +:+ (b +:+ c).
Proof.
  induction a as [| x a IH].
  - reflexivity.
  - rewrite !append_cons. now rewrite IH.
Qed.

Lemma escape_app (a b : string) :
  Web.escape (a +:+ b) = Web.escape a +:+ Web.escape b.
Proof.
  induction a as [| c a IH].
  - reflexivity.
  - rewrite append_cons. simpl Web.escape. rewrite IH.
    symmetry. apply append_assoc.
Qed.

Lemma uint_numeral (d : Decimal.uint) :
  Web.every Web.numeral_char (NilEmpty.string_of_uint d) = true.
Proof. induction d; simpl; auto. Qed.

Lemma str_int_numeral (z : Z) : Web.every Web.numeral_char (Py.str_int z) = true.
Proof.
  unfold Py.str_int.
  destruct (Z.to_int z) as [d | d]; simpl; apply uint_numeral.
Qed.

Lemma numeral_char_safe (c : ascii) :
  Web.numeral_char c = true -> Web.quote_plus_char c = String c EmptyString.
Proof.
  unfold Web.numeral_char, Web.quote_plus_char, Web.always_safe.
  intros H. apply orb_true_iff in H as [H | H]; rewrite H;
    now rewrite ?orb_true_r.
Qed.

Lemma numeral_char_unescaped (c : ascii) :
  Web.numeral_char c = true -> Web.escape_char c = String c EmptyString.
Proof.
  unfold Web.numeral_char, Web.escape_char, Web.between.
  intros H.
  assert (Hn : (48 <= N_of_ascii c <= 57 \/ N_of_ascii c = 45)%N).
  { apply orb_true_iff in H as [H | H].
    - apply andb_true_iff in H as [H1 H2].
      apply N.leb_le in H1, H2. left. split; assumption.
    - apply N.eqb_eq in H. now right. }
  repeat match goal with
         | |- context [(N_of_ascii c =? ?k)%N] =>
             destruct (N.eqb_spec (N_of_ascii c) k) as [Heq | _]; [exfalso; lia |]
         end.
  reflexivity.
Qed.

Lemma quote_plus_numeral (s : string) :
  Web.every Web.numeral_char s = true -> Web.quote_plus s = s.
Proof.
  induction s as [| c s IH]; simpl; intros H.
  - reflexivity.
  - apply andb_true_iff in H as [Hc Hs].
    rewrite (numeral_char_safe c Hc), (IH Hs). reflexivity.
Qed.

Lemma escape_numeral (s : string) :
  Web.every Web.numeral_char s = true -> Web.escape s = s.
Proof.
  induction s as [| c s IH]; simpl; intros H.
  - reflexivity.
  - apply andb_true_iff in H as [Hc Hs].
    rewrite (numeral_char_unescaped c Hc), (IH Hs). reflexivity.
Qed.

Lemma format_link (href body : string) :
  Web.format CollectionAdmin.link_template [href; body]
  = Some ("<a href=" +:+ Web.dquote +:+ href +:+ Web.dquote +:+ ">" +:+ body +:+ "</a>").
Proof. reflexivity. Qed.

(** The link that both count columns render: the escaped changelist path, a
    question mark, the filter parameter and the decimal id, around the
    decimal count. *)
Lemma count_link (path param : string) (id count : Z) :
  Web.quote_plus param = param ->
  Web.escape param = param ->
  Web.format_html CollectionAdmin.link_template
    [path +:+ "?" +:+ Web.urlencode [(param, Py.str_int id)]; Py.str_int count]
  = Some ("<a href=" +:+ Web.dquote
          +:+ Web.escape path +:+ "?" +:+ param +:+ "=" +:+ Py.str_int id
          +:+ Web.dquote +:+ ">" +:+ Py.str_int count +:+ "</a>").
Proof.
  intros Hquote Hescape.
  unfold Web.format_html. simpl map. rewrite format_link.
  simpl Web.urlencode.
  rewrite Hquote, (quote_plus_numeral _ (str_int_numeral id)).
  rewrite !escape_app, Hescape.
  rewrite !(escape_numeral _ (str_int_numeral _)).
  change (Web.escape "?") with "?". change (Web.escape "=") with "=".
  now rewrite !append_assoc.
Qed.

(** C8: the [products_count] column renders an anchor whose address is the
    product changelist's path followed by [?collection_id=] and the decimal
    id of the collection, around the count; the [orders_count] column
    renders an anchor whose address is the order changelist's path followed
    by [?customer_id=] and the decimal id of the customer.  (The path is
    HTML-escaped by [format_html], like every argument.) *)
Theorem count_columns_link_to_filtered_changelists
    (reverse : string -> string)
    (collection : Collection.t) (customer : Customer.t) (count : Z) :
  CollectionAdmin.products_count reverse (collection, count)
  = Some ("<a href=" +:+ Web.dquote
          +:+ Web.escape (reverse "admin:store_product_changelist")
          +:+ "?collection_id=" +:+ Py.str_int (Collection.id collection)
          +:+ Web.dquote +:+ ">" +:+ Py.str_int count +:+ "</a>")
  /\ CustomerAdmin.orders_count reverse (customer, count)
     = Some ("<a href=" +:+ Web.dquote
             +:+ Web.escape (reverse "admin:store_order_changelist")
             +:+ "?customer_id=" +:+ Py.str_int (Customer.id customer)
             +:+ Web.dquote +:+ ">" +:+ Py.str_int count +:+ "</a>").
Proof.
  split.
  - unfold CollectionAdmin.products_count. simpl fst. simpl snd.
    rewrite (count_link _ "collection_id") by reflexivity.
    reflexivity.
  - unfold CustomerAdmin.orders_count. simpl fst. simpl snd.
    rewrite (count_link _ "customer_id") by reflexivity.
    reflexivity.
Qed.

(** ** The inline editor of order items *)

(** The only formset-level check of the inline's formset is the cap on the
    number of posted forms, [max_num + 1000] with the [max_num] of the
    inline instance: the number of items is not validated. *)
Lemma inline_formset_validates_no_count
    (user : Permissions) (existing : list Z) (b : Formsets.Bound) :
  Formsets.non_form_errors (OrderItemInline.formset user) existing b
  = negb (Formsets.TOTAL_FORMS b
          <=? (if has_add_permission user then 1010 else 1000)).
Proof.
  unfold Formsets.non_form_errors. simpl.
  unfold OrderItemInline.instance_max_num, OrderItemInline.max_num,
    Formsets.DEFAULT_MAX_NUM.
  rewrite orb_false_r.
  destruct (has_add_permission user); simpl; apply Z.ltb_antisym.
Qed.


(** The form that [min_num] adds to a new order may not be posted blank. *)
Lemma blank_required_form_is_rejected
    (user : Permissions) (f : Formsets.Form) (more : list Formsets.Form) :
  Formsets.cleans f = false ->
  Formsets.DELETE f = false ->
  Formsets.is_valid (OrderItemInline.formset user) []
    {| Formsets.INITIAL_FORMS := 0; Formsets.posted := f :: more |} = false.
Proof.
  intros Hcleans Hkeep.
  unfold Formsets.is_valid, Formsets.forms_valid, Formsets.forms.
  assert (Hcap : exists n, Z.to_nat (Formsets.absolute_max (OrderItemInline.formset user))
                           = S n).
  { simpl. unfold OrderItemInline.instance_max_num.
    destruct (has_add_permission user); eexists; reflexivity. }
  destruct Hcap as [n ->]. simpl firstn. simpl Formsets.all_from.
  unfold Formsets.should_delete, Formsets.view_only, Formsets.form_is_valid,
    Formsets.empty_permitted.
  rewrite Hkeep, Hcleans. simpl.
  now rewrite !andb_false_r.
Qed.


(** ** The order-created receiver *)

(** Called with [self] bound by position, the receiver prints the order it
    finds among its keywords and returns [None]. *)
Lemma on_order_created_prints_when_self_is_bound
    (self order : Py.value) (kw : gmap string Py.value) (w : World) :
  kw !! "self" = None ->
  kw !! "order" = Some order ->
  Handlers.on_order_created [self] kw w
  = (Py.Ok Py.PyNone,
     with_stdout (stdout w +:+ Py.str order +:+ String (Web.char 10) EmptyString) w).
Proof.
  intros Hself Horder.
  unfold Handlers.on_order_created. simpl. rewrite Hself.
  unfold Handlers.on_order_created_body. rewrite Horder. reflexivity.
Qed.

(** Called with [self] bound by position and no [order] among its keywords,
    the receiver raises [KeyError]. *)
Lemma on_order_created_KeyError_when_self_is_bound
    (self : Py.value) (kw : gmap string Py.value) (w : World) :
  kw !! "self" = None ->
  kw !! "order" = None ->
  Handlers.on_order_created [self] kw w = (Py.Raise (Py.KeyError "order"), w).
Proof.
  intros Hself Horder.
  unfold Handlers.on_order_created. simpl. rewrite Hself.
  unfold Handlers.on_order_created_body. rewrite Horder. reflexivity.
Qed.

(** A signal calls its receivers with keywords only, so nothing fills the
    parameter [self]. *)
Lemma on_order_created_unbound_self (kw : gmap string Py.value) (w : World) :
  kw !! "self" = None ->
  Handlers.on_order_created [] kw w
  = (Py.Raise (Py.TypeError
       "on_order_created() missing 1 required positional argument: 'self'"), w).
Proof.
  intros Hself. unfold Handlers.on_order_created. simpl. now rewrite Hself.
Qed.

Lemma dispatch_keywords_lack_self
    (signal sender : Py.value) (named : gmap string Py.value) :
  named !! "self" = None ->
  (<["signal" := signal]> (<["sender" := sender]> named)) !! "self" = None.
Proof.
  intros Hself.
  rewrite lookup_insert_ne by discriminate.
  rewrite lookup_insert_ne by discriminate.
  exact Hself.
Qed.

(** C6: when the event fires with an order, the dispatch calls the receiver
    with the keywords [signal], [sender] and [order]; the call fails with a
    [TypeError] before the body runs, and nothing is printed.  Under [send]
    the exception reaches the code that fired the event, under [send_robust]
    it is the receiver's response. *)
Theorem order_created_dispatch_prints_nothing (sender order : Py.value) (w : World) :
  Dispatch.send Handlers.order_created_receivers Handlers.order_created sender
    {[ "order" := order ]} w
  = (Py.Raise (Py.TypeError
       "on_order_created() missing 1 required positional argument: 'self'"), w)
  /\ Dispatch.send_robust Handlers.order_created_receivers Handlers.order_created sender
       {[ "order" := order ]} w
     = (Py.Ok [Py.Raise (Py.TypeError
          "on_order_created() missing 1 required positional argument: 'self'")], w).
Proof.
  assert (Hcall :
    Dispatch.call_receiver Handlers.order_created sender {[ "order" := order ]}
      Handlers.on_order_created w
    = (Py.Raise (Py.TypeError
         "on_order_created() missing 1 required positional argument: 'self'"), w)).
  { unfold Dispatch.call_receiver.
    rewrite lookup_singleton_ne by discriminate.
    apply on_order_created_unbound_self, dispatch_keywords_lack_self.
    now rewrite lookup_singleton_ne by discriminate. }
  split.
  - unfold Dispatch.send, Dispatch.collides.
    rewrite !lookup_singleton_ne by discriminate.
    unfold Handlers.order_created_receivers. simpl Dispatch.send_each.
    unfold Py.bind at 1. now rewrite Hcall.
  - unfold Dispatch.send_robust, Dispatch.collides.
    rewrite !lookup_singleton_ne by discriminate.
    unfold Handlers.order_created_receivers. simpl Dispatch.send_robust_each.
    unfold Py.bind at 1. unfold Py.catch. unfold Py.bind at 1.
    now rewrite Hcall.
Qed.

(** C10: when the event fires without an order, the call of the receiver
    fails in the same way, with a [TypeError] for the unfilled parameter
    [self]; the lookup of [order], which would raise [KeyError], is not
    reached. *)
Theorem order_created_dispatch_without_order (sender : Py.value) (w : World) :
  Dispatch.send Handlers.order_created_receivers Handlers.order_created sender ∅ w
  = (Py.Raise (Py.TypeError
       "on_order_created() missing 1 required positional argument: 'self'"), w).
Proof.
  unfold Dispatch.send, Dispatch.collides. rewrite !lookup_empty.
  unfold Handlers.order_created_receivers. simpl Dispatch.send_each.
  unfold Py.bind at 1. unfold Dispatch.call_receiver.
  rewrite lookup_empty.
  rewrite on_order_created_unbound_self; [reflexivity |].
  apply dispatch_keywords_lack_self, lookup_empty.
Qed.

(** * Further properties of the admin and of the receiver *)

(** ** The bulk action: what it leaves alone, and running it again *)

Lemma with_inventory_back (p : Product.t) (v : Z) :
  Product.with_inventory (Product.inventory p) (Product.with_inventory v p) = p.
Proof. destruct p; reflexivity. Qed.

Lemma with_inventory_same (p : Product.t) :
  Product.with_inventory (Product.inventory p) p = p.
Proof. destruct p; reflexivity. Qed.

Lemma update_keeps_other_fields (qs : Orm.QuerySet) (v : Z) (table : list Product.t) :
  Forall2 (fun p p' => Product.with_inventory (Product.inventory p) p' = p)
          table (fst (Orm.sql_update_inventory qs v table)).
Proof.
  simpl. induction table as [| p table IH]; simpl; constructor; try exact IH.
  destruct (Orm.selects qs p).
  - apply with_inventory_back.
  - apply with_inventory_same.
Qed.

Lemma Forall2_same {A : Type} (R : A -> A -> Prop) (l : list A) :
  (forall x, R x x) -> Forall2 R l l.
Proof. intros HR. induction l; constructor; auto. Qed.

(** X1: whatever the query set and whether or not the UPDATE succeeds,
    [clear_inventory] leaves standard output, the collection, customer,
    order and order-item tables and the state of the backend as they were,
    and keeps the product table row for row: each product afterwards differs
    from the product before in its inventory at most. *)
Theorem clear_inventory_frame
    (quaryset : Orm.QuerySet) (w w' : World) (r : Py.result unit) :
  ProductAdmin.clear_inventory quaryset w = (r, w') ->
  stdout w' = stdout w
  /\ Orm.store_collection (db w') = Orm.store_collection (db w)
  /\ Orm.store_customer (db w') = Orm.store_customer (db w)
  /\ Orm.store_order (db w') = Orm.store_order (db w)
  /\ Orm.store_orderitem (db w') = Orm.store_orderitem (db w)
  /\ Orm.accepting (db w') = Orm.accepting (db w)
  /\ Forall2 (fun p p' => Product.with_inventory (Product.inventory p) p' = p)
             (Orm.store_product (db w)) (Orm.store_product (db w')).
Proof.
  intros Hrun.
  destruct (Orm.accepting (db w)) eqn:Hup.
  - rewrite (clear_inventory_runs quaryset w Hup) in Hrun.
    injection Hrun as _ <-. simpl.
    repeat split; try reflexivity; try exact Hup.
    apply (update_keeps_other_fields quaryset 0).
  - rewrite (clear_inventory_fails quaryset w Hup) in Hrun.
    injection Hrun as _ <-.
    repeat split; try reflexivity; try exact Hup.
    apply Forall2_same. intros p. apply with_inventory_same.
Qed.

Lemma clear_inventory_frame_witness :
  exists w' : World,
    ProductAdmin.clear_inventory [Orm.pk__in [1; 3]] (Fixture.world true) = (Py.Ok tt, w')
    /\ stdout w' = stdout (Fixture.world true)
    /\ Orm.store_collection (db w') = Orm.store_collection (db (Fixture.world true))
    /\ Orm.store_order (db w') = Orm.store_order (db (Fixture.world true))
    /\ map Product.id (Orm.store_product (db w')) = [1; 2; 3; 4].
Proof.
  eexists. split; [reflexivity |].
  destruct (clear_inventory_frame [Orm.pk__in [1; 3]] (Fixture.world true) _ _ eq_refl)
    as (Hout & Hcol & _ & Hord & _).
  split; [exact Hout | split; [exact Hcol | split; [exact Hord | reflexivity]]].
Defined.

Lemma update_twice (qs : Orm.QuerySet) (table : list Product.t) :
  fst (Orm.sql_update_inventory qs 0 (fst (Orm.sql_update_inventory qs 0 table)))
  = fst (Orm.sql_update_inventory qs 0 table).
Proof.
  simpl. rewrite map_map. apply map_ext. intros p.
  destruct (Orm.selects qs p) eqn:Hsel.
  - destruct (Orm.selects qs (Product.with_inventory 0 p)); reflexivity.
  - now rewrite Hsel.
Qed.

(** X2: when the backend takes the UPDATE, running [clear_inventory] a
    second time with the same query set succeeds again and leaves the
    database exactly as the first run left it (even when the query set
    itself filters on the inventory). *)
Theorem clear_inventory_twice (quaryset : Orm.QuerySet) (w : World) :
  Orm.accepting (db w) = true ->
  exists w1 w2 : World,
    ProductAdmin.clear_inventory quaryset w = (Py.Ok tt, w1)
    /\ ProductAdmin.clear_inventory quaryset w1 = (Py.Ok tt, w2)
    /\ db w2 = db w1.
Proof.
  intros Hup.
  eexists. eexists. split; [apply clear_inventory_runs, Hup |].
  split; [apply clear_inventory_runs; exact Hup |].
  simpl. unfold Orm.with_products. simpl.
  f_equal. apply (update_twice quaryset).
Qed.

Lemma clear_inventory_twice_witness :
  Orm.accepting (db (Fixture.world true)) = true
  /\ exists w1 w2 : World,
       ProductAdmin.clear_inventory [Orm.inventory__lt 10] (Fixture.world true)
       = (Py.Ok tt, w1)
       /\ ProductAdmin.clear_inventory [Orm.inventory__lt 10] w1 = (Py.Ok tt, w2)
       /\ db w2 = db w1.
Proof.
  split; [reflexivity |].
  apply (clear_inventory_twice [Orm.inventory__lt 10] (Fixture.world true)).
  reflexivity.
Defined.

(** X3: after a successful [clear_inventory], a product shows the status
    ['Low'] exactly when the query set selected it or it showed ['Low']
    before: the action moves the selected products into the low-inventory
    list and never takes a product out of it. *)
Theorem clear_inventory_status_afterwards (quaryset : Orm.QuerySet) (w : World) :
  Orm.accepting (db w) = true ->
  exists w' : World,
    ProductAdmin.clear_inventory quaryset w = (Py.Ok tt, w')
    /\ Forall2 (fun p p' =>
                  ProductAdmin.inventory_status p' = "Low"
                  <-> Orm.selects quaryset p = true
                      \/ ProductAdmin.inventory_status p = "Low")
               (Orm.store_product (db w)) (Orm.store_product (db w')).
Proof.
  intros Hup. eexists. split; [apply clear_inventory_runs, Hup |].
  simpl.
  eapply Forall2_impl; [apply (update_relates quaryset 0) |].
  intros p p' [Hsel Hnot].
  destruct (Orm.selects quaryset p).
  - rewrite (Hsel eq_refl). split; [now left | reflexivity].
  - rewrite (Hnot eq_refl). split; [now right | intros [H | H]; [discriminate H | exact H]].
Qed.

Lemma clear_inventory_status_afterwards_witness :
  Orm.accepting (db (Fixture.world true)) = true
  /\ exists w' : World,
       ProductAdmin.clear_inventory [Orm.pk__in [2]] (Fixture.world true) = (Py.Ok tt, w')
       /\ Forall2 (fun p p' =>
                     ProductAdmin.inventory_status p' = "Low"
                     <-> Orm.selects [Orm.pk__in [2]] p = true
                         \/ ProductAdmin.inventory_status p = "Low")
                  (Orm.store_product (db (Fixture.world true)))
                  (Orm.store_product (db w')).
Proof.
  split; [reflexivity |].
  apply (clear_inventory_status_afterwards [Orm.pk__in [2]] (Fixture.world true)).
  reflexivity.
Defined.

Lemma update_nothing_selected (qs : Orm.QuerySet) (v : Z) (table : list Product.t) :
  Orm.rows qs table = [] ->
  fst (Orm.sql_update_inventory qs v table) = table.
Proof.
  unfold Orm.rows. simpl.
  induction table as [| p table IH]; simpl; intros Hrows.
  - reflexivity.
  - destruct (Orm.selects qs p); [discriminate Hrows |].
    now rewrite (IH Hrows).
Qed.

(** X4: when the query set selects no row of the product table, a
    successful [clear_inventory] changes nothing in the database and still
    queues its message at level ERROR, with the count 0. *)
Theorem clear_inventory_nothing_selected (quaryset : Orm.QuerySet) (w : World) :
  Orm.accepting (db w) = true ->
  Orm.rows quaryset (Orm.store_product (db w)) = [] ->
  ProductAdmin.clear_inventory quaryset w
  = (Py.Ok tt,
     with_shown
       (shown w ++
        [{| Messages.level := Messages.ERROR;
            Messages.message := "0 products were successfully updated." |}])%list
       w).
Proof.
  intros Hup Hnone.
  rewrite (clear_inventory_runs quaryset w Hup).
  rewrite (update_nothing_selected quaryset 0 _ Hnone), Hnone.
  destruct w as [d msgs out]. destruct d. reflexivity.
Qed.

Lemma clear_inventory_nothing_selected_witness :
  Orm.accepting (db (Fixture.world true)) = true
  /\ Orm.rows [Orm.pk__in [7]] (Orm.store_product (db (Fixture.world true))) = []
  /\ ProductAdmin.clear_inventory [Orm.pk__in [7]] (Fixture.world true)
     = (Py.Ok tt,
        with_shown
          (shown (Fixture.world true) ++
           [{| Messages.level := Messages.ERROR;
               Messages.message := "0 products were successfully updated." |}])%list
          (Fixture.world true)).
Proof.
  split; [reflexivity | split; [reflexivity |]].
  apply (clear_inventory_nothing_selected [Orm.pk__in [7]] (Fixture.world true));
    reflexivity.
Defined.

(** ** The inventory filter: narrowing, and its lookups *)

Lemma rows_filter (l : Orm.Lookup) (qs : Orm.QuerySet) (table : list Product.t) :
  Orm.rows (Orm.filter l qs) table = List.filter (Orm.holds l) (Orm.rows qs table).
Proof.
  unfold Orm.rows.
  induction table as [| p table IH]; simpl.
  - reflexivity.
  - rewrite selects_filter.
    destruct (Orm.selects qs p); simpl.
    + destruct (Orm.holds l p); now rewrite IH.
    + exact IH.
Qed.

Lemma filter_sublist {A : Type} (f : A -> bool) (l : list A) :
  sublist (List.filter f l) l.
Proof.
  induction l as [| x l IH]; simpl.
  - constructor.
  - destruct (f x); now constructor.
Qed.

Lemma filter_again {A : Type} (f : A -> bool) (l : list A) :
  List.filter f (List.filter f l) = List.filter f l.
Proof.
  induction l as [| x l IH]; simpl.
  - reflexivity.
  - destruct (f x) eqn:Hfx; simpl; [rewrite Hfx |]; now rewrite IH.
Qed.

(** X5: whatever its value, the inventory filter only narrows the
    changelist: on every table the rows after the filter are a sublist (same
    order, nothing new) of the rows before it; and applying the filter a
    second time changes nothing more. *)
Theorem inventory_filter_only_narrows
    (value : option string) (queryset : Orm.QuerySet) (table : list Product.t) :
  sublist
    (Orm.rows (ChangeList.apply_filter (InventoryFilter.queryset value) queryset) table)
    (Orm.rows queryset table)
  /\ Orm.rows (ChangeList.apply_filter (InventoryFilter.queryset value)
                 (ChangeList.apply_filter (InventoryFilter.queryset value) queryset))
              table
     = Orm.rows (ChangeList.apply_filter (InventoryFilter.queryset value) queryset) table.
Proof.
  unfold ChangeList.apply_filter, InventoryFilter.queryset.
  destruct value as [v |]; [destruct (String.eqb v "<10") |].
  - rewrite !rows_filter. split; [apply filter_sublist | apply filter_again].
  - split; reflexivity.
  - split; reflexivity.
Qed.

(** X6: every value that [lookups] offers is one that [queryset] acts on,
    and the label offered with it is the status that the display column
    shows for each product the restricted query set selects. *)
Theorem inventory_filter_lookups_are_handled
    (queryset : Orm.QuerySet) (product : Product.t) :
  Forall (fun entry =>
            exists restricted : Orm.QuerySet,
              InventoryFilter.queryset (Some (fst entry)) queryset = Some restricted
              /\ (Orm.selects restricted product = true
                  -> ProductAdmin.inventory_status product = snd entry))
         InventoryFilter.lookups.
Proof.
  unfold InventoryFilter.lookups.
  constructor; [| constructor].
  eexists. split; [reflexivity |].
  simpl. rewrite selects_filter, andb_true_iff. simpl.
  intros [_ Hlow]. unfold ProductAdmin.inventory_status. now rewrite Hlow.
Qed.

(** ** The collection column of the product list *)

Lemma find_by_unique_id (c : Collection.t) (l : list Collection.t) :
  NoDup (map Collection.id l) ->
  In c l ->
  List.find (fun c' => Collection.id c' =? Collection.id c) l = Some c.
Proof.
  induction l as [| x l IH]; simpl; intros Hnodup Hin.
  - contradiction.
  - apply NoDup_cons in Hnodup as [Hfresh Hnodup].
    destruct Hin as [-> | Hin].
    + now rewrite Z.eqb_refl.
    + destruct (Z.eqb_spec (Collection.id x) (Collection.id c)) as [Heq | _].
      * exfalso. apply Hfresh. rewrite Heq.
        apply list_elem_of_In, in_map, Hin.
      * apply IH; assumption.
Qed.

(** X7: in a database whose collection ids are unique, the
    [collection_title] column of a product shows the title of the collection
    row whose id is the product's foreign key. *)
Theorem collection_title_follows_the_foreign_key
    (d : Orm.Database) (product : Product.t) (collection : Collection.t) :
  NoDup (map Collection.id (Orm.store_collection d)) ->
  In collection (Orm.store_collection d) ->
  Product.collection_id product = Collection.id collection ->
  ProductAdmin.collection_title d product = Some (Collection.title collection).
Proof.
  intros Hnodup Hin Hfk. unfold ProductAdmin.collection_title.
  rewrite Hfk. now rewrite (find_by_unique_id collection _ Hnodup Hin).
Qed.

Lemma collection_title_follows_the_foreign_key_witness :
  ProductAdmin.collection_title (Fixture.shop true) (Fixture.product 2 3 20)
  = Some "several".
Proof.
  apply (collection_title_follows_the_foreign_key (Fixture.shop true)
           (Fixture.product 2 3 20) (Fixture.collection 3 "several")).
  - simpl. repeat (apply NoDup_cons; split); try apply NoDup_nil_2;
      rewrite ?elem_of_cons, ?elem_of_nil; intros H; intuition discriminate.
  - simpl. tauto.
  - reflexivity.
Defined.

(** X8: the [collection_title] column has no value (the access raises)
    exactly when no collection row has the id that the product's foreign key
    holds. *)
Theorem collection_title_dangling (d : Orm.Database) (product : Product.t) :
  ProductAdmin.collection_title d product = None
  <-> Forall (fun c => Collection.id c <> Product.collection_id product)
             (Orm.store_collection d).
Proof.
  unfold ProductAdmin.collection_title.
  induction (Orm.store_collection d) as [| c l IH]; simpl.
  - split; [constructor | reflexivity].
  - destruct (Z.eqb_spec (Collection.id c) (Product.collection_id product))
      as [Heq | Hne].
    + split; [discriminate |].
      intros H. apply Forall_cons in H as [H _]. contradiction.
    + rewrite IH. split.
      * intros H. now constructor.
      * intros H. now apply Forall_cons in H as [_ H].
Qed.

(** ** The counts, summed and followed *)

Section CountTotals.
Context {A B : Type} (pk : A -> Z) (fk : B -> Z).

Local Abbreviation total l := (fold_right Z.add 0 l).
Local Abbreviation children_of a children :=
  (Z.of_nat (length (List.filter (fun b : B => fk b =? pk a) children))).

Lemma one_parent_has_the_key (k : Z) (parents : list A) :
  NoDup (map pk parents) ->
  In k (map pk parents) ->
  total (map (fun a => if k =? pk a then 1 else 0) parents) = 1.
Proof.
  induction parents as [| a parents IH]; simpl; intros Hnodup Hin.
  - contradiction.
  - apply NoDup_cons in Hnodup as [Hfresh Hnodup].
    destruct (Z.eqb_spec k (pk a)) as [-> | Hne].
    + assert (Hzero : total (map (fun a' => if pk a =? pk a' then 1 else 0) parents) = 0).
      { clear IH Hin Hnodup.
        induction parents as [| a' parents IH]; simpl; [reflexivity |].
        destruct (Z.eqb_spec (pk a) (pk a')) as [Heq | _].
        - exfalso. apply Hfresh. rewrite Heq. simpl. apply elem_of_cons. now left.
        - rewrite IH; [reflexivity |].
          intros H. apply Hfresh. simpl. apply elem_of_cons. now right. }
      rewrite Hzero. reflexivity.
    + destruct Hin as [Heq | Hin]; [congruence |].
      now rewrite (IH Hnodup Hin).
Qed.

Lemma total_map_add (f g : A -> Z) (parents : list A) :
  total (map (fun a => f a + g a) parents)
  = total (map f parents) + total (map g parents).
Proof. induction parents as [| a parents IH]; simpl; [reflexivity | rewrite IH; lia]. Qed.

Lemma counts_sum_to_children (parents : list A) (children : list B) :
  NoDup (map pk parents) ->
  Forall (fun b => In (fk b) (map pk parents)) children ->
  total (map (fun a => children_of a children) parents) = Z.of_nat (length children).
Proof.
  intros Hnodup Hall.
  induction Hall as [| b children Hb _ IH].
  - simpl. induction parents as [| a parents IHp]; simpl; [reflexivity |].
    apply NoDup_cons in Hnodup as [_ Hnodup]. now rewrite (IHp Hnodup).
  - rewrite (map_ext _ (fun a => (if fk b =? pk a then 1 else 0)
                                 + children_of a children)).
    + rewrite total_map_add, IH, (one_parent_has_the_key _ _ Hnodup Hb).
      simpl length. lia.
    + intros a. simpl List.filter.
      destruct (fk b =? pk a); simpl length; lia.
Qed.

Lemma annotate_Count_total (parents : list A) (children : list B) :
  NoDup (map pk parents) ->
  Forall (fun b => In (fk b) (map pk parents)) children ->
  total (map snd (Orm.annotate_Count pk fk parents children))
  = Z.of_nat (length children).
Proof.
  intros Hnodup Hall.
  rewrite (annotate_Count_true_count pk fk parents children Hnodup).
  rewrite map_map. simpl. now apply counts_sum_to_children.
Qed.

End CountTotals.

Lemma total_permutation {A : Type} (l l' : list (A * Z)) :
  Permutation l l' ->
  fold_right Z.add 0 (map snd l) = fold_right Z.add 0 (map snd l').
Proof.
  induction 1 as [| x l l' _ IH | x y l | l l' l'' _ IH1 _ IH2]; simpl.
  - reflexivity.
  - now rewrite IH.
  - lia.
  - now rewrite IH1.
Qed.

(** X9: in a database with unique primary keys in which every product
    refers to a collection row and every order to a customer row, the
    [products_count] annotations of the collection list add up to the number
    of products, and the [orders_count] annotations of the customer list add
    up to the number of orders: no product or order is counted twice or
    left out. *)
Theorem annotated_counts_partition_the_children (d : Orm.Database) :
  NoDup (map Collection.id (Orm.store_collection d)) ->
  NoDup (map Customer.id (Orm.store_customer d)) ->
  Forall (fun p => In (Product.collection_id p)
                      (map Collection.id (Orm.store_collection d)))
         (Orm.store_product d) ->
  Forall (fun o => In (Order.customer_id o)
                      (map Customer.id (Orm.store_customer d)))
         (Orm.store_order d) ->
  fold_right Z.add 0 (map snd (CollectionAdmin.get_queryset d))
  = Z.of_nat (length (Orm.store_product d))
  /\ fold_right Z.add 0 (map snd (CustomerAdmin.get_queryset d))
     = Z.of_nat (length (Orm.store_order d)).
Proof.
  intros Hcol Hcus Hproducts Horders. split.
  - now apply annotate_Count_total.
  - unfold CustomerAdmin.get_queryset.
    rewrite (total_permutation _ _ (order_by_permutation _ _)).
    now apply annotate_Count_total.
Qed.

Ltac distinct_ids :=
  simpl; repeat (apply NoDup_cons; split); try apply NoDup_nil_2;
  rewrite ?elem_of_cons, ?elem_of_nil; intros H; intuition discriminate.

Lemma annotated_counts_partition_the_children_witness :
  fold_right Z.add 0 (map snd (CollectionAdmin.get_queryset (Fixture.shop true)))
  = Z.of_nat (length (Orm.store_product (Fixture.shop true)))
  /\ fold_right Z.add 0 (map snd (CustomerAdmin.get_queryset (Fixture.shop true)))
     = Z.of_nat (length (Orm.store_order (Fixture.shop true))).
Proof.
  apply (annotated_counts_partition_the_children (Fixture.shop true)).
  - distinct_ids.
  - distinct_ids.
  - simpl. repeat constructor; simpl; tauto.
  - simpl. repeat constructor; simpl; tauto.
Defined.

Lemma rows_all (table : list Product.t) : Orm.rows Orm.all table = table.
Proof.
  unfold Orm.rows, Orm.all. simpl.
  induction table as [| p table IH]; simpl; [reflexivity | now rewrite IH].
Qed.

(** X10: in a database with unique collection ids, the count shown for a
    collection is the number of rows of the product list restricted by the
    lookup that the count's link carries, [collection_id] equal to the id of
    that collection. *)
Theorem products_count_is_the_size_of_the_linked_list (d : Orm.Database) :
  NoDup (map Collection.id (Orm.store_collection d)) ->
  Forall (fun row =>
            snd row
            = Z.of_nat (length (Orm.rows
                                  (Orm.filter
                                     (Orm.collection_id__exact (Collection.id (fst row)))
                                     Orm.all)
                                  (Orm.store_product d))))
         (CollectionAdmin.get_queryset d).
Proof.
  intros Hnodup. unfold CollectionAdmin.get_queryset.
  rewrite (annotate_Count_true_count _ _ _ _ Hnodup).
  apply Forall_forall. intros row Hin.
  apply list_elem_of_In, in_map_iff in Hin as (c & <- & _). simpl.
  now rewrite rows_filter, rows_all.
Qed.

Lemma products_count_is_the_size_of_the_linked_list_witness :
  Forall (fun row =>
            snd row
            = Z.of_nat (length (Orm.rows
                                  (Orm.filter
                                     (Orm.collection_id__exact (Collection.id (fst row)))
                                     Orm.all)
                                  (Orm.store_product (Fixture.shop true)))))
         (CollectionAdmin.get_queryset (Fixture.shop true)).
Proof.
  apply (products_count_is_the_size_of_the_linked_list (Fixture.shop true)).
  distinct_ids.
Defined.

(** ** The count links can be told apart *)

Lemma str_int_inj (z z' : Z) : Py.str_int z = Py.str_int z' -> z = z'.
Proof.
  unfold Py.str_int. intros H.
  apply (f_equal NilEmpty.int_of_string) in H.
  rewrite !NilEmpty.isi in H. injection H as H.
  now apply DecimalZ.to_int_inj.
Qed.

Lemma append_inv_head (a x y : string) : a +:+ x = a +:+ y -> x = y.
Proof.
  induction a as [| c a IH]; intros H.
  - exact H.
  - rewrite !append_cons in H. injection H as H. now apply IH.
Qed.

(** Two numerals followed by the same character, which is not one of a
    numeral, are equal as soon as the whole strings are. *)
Lemma numeral_then_stop (s s' r r' : string) (stop : ascii) :
  Web.every Web.numeral_char s = true ->
  Web.every Web.numeral_char s' = true ->
  Web.numeral_char stop = false ->
  s +:+ String stop r = s' +:+ String stop r' ->
  s = s' /\ r = r'.
Proof.
  intros Hs Hs' Hstop. revert s' Hs'.
  induction s as [| c s IH]; intros [| c' s'] Hs' H.
  - injection H as H. now split.
  - rewrite append_cons in H. injection H as Hc _.
    simpl in Hs'. apply andb_true_iff in Hs' as [Hc' _]. congruence.
  - rewrite append_cons in H. injection H as Hc _.
    simpl in Hs. apply andb_true_iff in Hs as [Hc' _]. congruence.
  - rewrite !append_cons in H. injection H as Hc H.
    simpl in Hs, Hs'.
    apply andb_true_iff in Hs as [_ Hs]. apply andb_true_iff in Hs' as [_ Hs'].
    destruct (IH Hs s' Hs' H) as [-> ->]. now subst.
Qed.

Lemma count_link_inj (path param : string) (id id' count count' : Z) :
  Web.quote_plus param = param ->
  Web.escape param = param ->
  Web.format_html CollectionAdmin.link_template
    [path +:+ "?" +:+ Web.urlencode [(param, Py.str_int id)]; Py.str_int count]
  = Web.format_html CollectionAdmin.link_template
      [path +:+ "?" +:+ Web.urlencode [(param, Py.str_int id')]; Py.str_int count'] ->
  id = id' /\ count = count'.
Proof.
  intros Hquote Hescape H.
  rewrite !count_link in H by assumption.
  injection H as H.
  do 5 apply append_inv_head in H.
  apply (numeral_then_stop _ _ _ _ (Web.char 34)) in H as [Hid H];
    [| apply str_int_numeral | apply str_int_numeral | reflexivity].
  apply (append_inv_head ">") in H.
  apply (numeral_then_stop _ _ "/a>" "/a>" "<") in H as [Hcount _];
    [| apply str_int_numeral | apply str_int_numeral | reflexivity].
  split; now apply str_int_inj.
Qed.

(** X11: the link of a count column determines the row it was rendered for:
    two [products_count] links are the same text only for collections of the
    same id with the same count, and two [orders_count] links only for
    customers of the same id with the same count. *)
Theorem count_links_determine_id_and_count
    (reverse : string -> string)
    (collection collection' : Collection.t) (customer customer' : Customer.t)
    (count count' : Z) :
  (CollectionAdmin.products_count reverse (collection, count)
   = CollectionAdmin.products_count reverse (collection', count')
   -> Collection.id collection = Collection.id collection' /\ count = count')
  /\ (CustomerAdmin.orders_count reverse (customer, count)
      = CustomerAdmin.orders_count reverse (customer', count')
      -> Customer.id customer = Customer.id customer' /\ count = count').
Proof.
  split; intros H.
  - apply (count_link_inj (reverse "admin:store_product_changelist") "collection_id");
      [reflexivity | reflexivity | exact H].
  - apply (count_link_inj (reverse "admin:store_order_changelist") "customer_id");
      [reflexivity | reflexivity | exact H].
Qed.

(** ** The receiver, for every call and every event *)

Lemma append_nil_r (s : string) : s +:+ EmptyString = s.
Proof.
  induction s as [| c s IH]; [reflexivity |].
  rewrite append_cons. now rewrite IH.
Qed.

Lemma on_order_created_body_frame
    (self : Py.value) (kwargs : gmap string Py.value) (w : World) :
  db (snd (Handlers.on_order_created_body self kwargs w)) = db w
  /\ shown (snd (Handlers.on_order_created_body self kwargs w)) = shown w
  /\ exists printed : string,
       stdout (snd (Handlers.on_order_created_body self kwargs w))
       = stdout w +:+ printed.
Proof.
  unfold Handlers.on_order_created_body.
  destruct (kwargs !! "order") as [order |]; simpl.
  - repeat split. eexists. reflexivity.
  - repeat split. exists EmptyString. now rewrite append_nil_r.
Qed.

(** X12: however [on_order_created] is called and whatever it returns or
    raises, it leaves the database and the queued messages as they were, and
    standard output keeps what it held: the only effect is text appended to
    it. *)
Theorem on_order_created_only_appends_to_stdout
    (args : list Py.value) (kw : gmap string Py.value) (w : World) :
  db (snd (Handlers.on_order_created args kw w)) = db w
  /\ shown (snd (Handlers.on_order_created args kw w)) = shown w
  /\ exists printed : string,
       stdout (snd (Handlers.on_order_created args kw w)) = stdout w +:+ printed.
Proof.
  unfold Handlers.on_order_created.
  destruct (Py.bind_arguments "on_order_created" ["self"] args kw)
    as [[[| self [| extra vs]] kwargs] | e];
    try apply on_order_created_body_frame;
    simpl; repeat split; exists EmptyString; now rewrite append_nil_r.
Qed.

(** X13: whatever named arguments the event carries (none can be called
    [self] or [sender], which are the parameters of the call that fires the
    event), the dispatch to [on_order_created] ends in a [TypeError] and
    leaves the process as it was: under [send] the sender of the event gets
    the exception, under [send_robust] it gets it as the response; nothing is
    printed. *)
Theorem order_created_dispatch_always_TypeError
    (sender : Py.value) (named : gmap string Py.value) (w : World) :
  named !! "self" = None ->
  named !! "sender" = None ->
  exists msg : string,
    Dispatch.send Handlers.order_created_receivers Handlers.order_created sender named w
    = (Py.Raise (Py.TypeError msg), w)
    /\ Dispatch.send_robust Handlers.order_created_receivers Handlers.order_created
         sender named w
       = (Py.Ok [Py.Raise (Py.TypeError msg)], w).
Proof.
  intros Hself Hsender.
  assert (Hcall : exists msg : string,
    Dispatch.call_receiver Handlers.order_created sender named
      Handlers.on_order_created w
    = (Py.Raise (Py.TypeError msg), w)).
  { unfold Dispatch.call_receiver.
    destruct (named !! "signal"); [eexists; reflexivity |].
    eexists. apply on_order_created_unbound_self.
    now apply dispatch_keywords_lack_self. }
  destruct Hcall as [msg Hcall]. exists msg.
  unfold Dispatch.send, Dispatch.send_robust, Dispatch.collides.
  rewrite Hself, Hsender.
  unfold Handlers.order_created_receivers. split.
  - simpl Dispatch.send_each. unfold Py.bind at 1. now rewrite Hcall.
  - simpl Dispatch.send_robust_each.
    unfold Py.bind at 1. unfold Py.catch. unfold Py.bind at 1.
    now rewrite Hcall.
Qed.

Lemma order_created_dispatch_always_TypeError_witness :
  exists msg : string,
    Dispatch.send Handlers.order_created_receivers Handlers.order_created
      (Py.PyStr "OrderSerializer")
      (<["order" := Fixture.an_order]> {[ "user_id" := Py.PyInt 7 ]})
      (Fixture.world true)
    = (Py.Raise (Py.TypeError msg), Fixture.world true)
    /\ Dispatch.send_robust Handlers.order_created_receivers Handlers.order_created
         (Py.PyStr "OrderSerializer")
         (<["order" := Fixture.an_order]> {[ "user_id" := Py.PyInt 7 ]})
         (Fixture.world true)
       = (Py.Ok [Py.Raise (Py.TypeError msg)], Fixture.world true).
Proof.
  apply (order_created_dispatch_always_TypeError (Py.PyStr "OrderSerializer")
           (<["order" := Fixture.an_order]> {[ "user_id" := Py.PyInt 7 ]})
           (Fixture.world true)); reflexivity.
Defined.

(** A named argument called [self] or [sender] never reaches a receiver:
    the call that fires the event raises, under [send_robust] too. *)
Lemma colliding_event_raises_to_the_caller
    (receivers : list Dispatch.Receiver) (signal sender : Py.value)
    (named : gmap string Py.value) (p : string) (w : World) :
  Dispatch.collides named = Some p ->
  exists msg msg' : string,
    Dispatch.send receivers signal sender named w = (Py.Raise (Py.TypeError msg), w)
    /\ Dispatch.send_robust receivers signal sender named w
       = (Py.Raise (Py.TypeError msg'), w).
Proof.
  intros Hclash. unfold Dispatch.send, Dispatch.send_robust. rewrite Hclash.
  eexists. eexists. split; reflexivity.
Qed.

(** X15: called directly with one positional argument (and no keyword
    [self]), [on_order_created] ignores that argument and every keyword but
    [order]: it prints the text of the order and a newline and returns
    [None] when [order] is among the keywords, and raises [KeyError] for
    ['order'], printing nothing, when it is not. *)
Theorem on_order_created_called_directly
    (self : Py.value) (kw : gmap string Py.value) (w : World) :
  kw !! "self" = None ->
  Handlers.on_order_created [self] kw w
  = match kw !! "order" with
    | Some order =>
        (Py.Ok Py.PyNone,
         with_stdout (stdout w +:+ Py.str order +:+ String (Web.char 10) EmptyString) w)
    | None => (Py.Raise (Py.KeyError "order"), w)
    end.
Proof.
  intros Hself.
  destruct (kw !! "order") as [order |] eqn:Horder.
  - now apply on_order_created_prints_when_self_is_bound.
  - now apply on_order_created_KeyError_when_self_is_bound.
Qed.

Lemma on_order_created_called_directly_witness :
  Handlers.on_order_created [Py.PyStr "OrderSerializer"]
    (<["order" := Fixture.an_order]> {[ "user_id" := Py.PyInt 7 ]})
    (Fixture.world true)
  = (Py.Ok Py.PyNone,
     with_stdout ("Order object (1)" +:+ String (Web.char 10) EmptyString)
       (Fixture.world true)).
Proof.
  rewrite (on_order_created_called_directly (Py.PyStr "OrderSerializer")
             (<["order" := Fixture.an_order]> {[ "user_id" := Py.PyInt 7 ]})
             (Fixture.world true))
    by reflexivity.
  reflexivity.
Defined.

(** ** The inline formset: the bound that is enforced *)

Lemma count_from_le_length {A : Type} (p : nat -> A -> bool) (i : nat) (l : list A) :
  0 <= Formsets.count_from p i l <= Z.of_nat (length l).
Proof.
  revert i. induction l as [| x l IH]; intros i; simpl Formsets.count_from.
  - simpl. lia.
  - specialize (IH (S i)). simpl length. destruct (p i x); lia.
Qed.

Lemma count_from_none {A : Type} (p : nat -> A -> bool) (i : nat) (l : list A) :
  (forall j x, p j x = false) -> Formsets.count_from p i l = 0.
Proof.
  intros Hp. revert i.
  induction l as [| x l IH]; intros i; simpl; [reflexivity |].
  now rewrite Hp, IH.
Qed.

Lemma filter_no_longer {A : Type} (f : A -> bool) (l : list A) :
  (length (List.filter f l) <= length l)%nat.
Proof.
  induction l as [| x l IH]; simpl; [lia |].
  destruct (f x); simpl; lia.
Qed.

(** X14: the formset that the admin builds for [OrderItemInline] caps what
    one edit can do: a save adds at most [max_num + 1000] = 1010 items to
    the items the order had, and none for a user who may not add items; and
    an edit that posts more than 1010 forms is not valid. *)
Theorem inline_edit_is_capped_at_1010
    (user : Permissions) (existing : list Z) (b : Formsets.Bound) :
  0 <= Formsets.children_after_save (OrderItemInline.formset user) existing b
    <= Z.of_nat (length existing) + (if has_add_permission user then 1010 else 0)
  /\ (1010 < Formsets.TOTAL_FORMS b
      -> Formsets.is_valid (OrderItemInline.formset user) existing b = false).
Proof.
  split.
  - unfold Formsets.children_after_save.
    pose proof (filter_no_longer
                  (fun k => negb (Formsets.deleted_by_save
                                    (OrderItemInline.formset user) existing b k))
                  existing) as Hkept.
    assert (Hnew : 0 <= Formsets.created_by_save (OrderItemInline.formset user) existing b
                     <= (if has_add_permission user then 1010 else 0)).
    { unfold Formsets.created_by_save.
      destruct (has_add_permission user) eqn:Hadd.
      - match goal with
        | |- _ <= Formsets.count_from ?p 0 ?l <= _ =>
            pose proof (count_from_le_length p 0 l) as Hcount;
            assert (Hlen : (length l <= 1010)%nat)
        end.
        { unfold Formsets.forms. rewrite length_firstn.
          replace (Formsets.absolute_max (OrderItemInline.formset user)) with 1010
            by (simpl; unfold OrderItemInline.instance_max_num; now rewrite Hadd).
          lia. }
        lia.
      - rewrite count_from_none; [lia |].
        intros j f. unfold Formsets.changed, Formsets.instance. simpl.
        rewrite Hadd.
        destruct (Nat.leb_spec (Formsets.INITIAL_FORMS b) j) as [Hle | Hlt];
          [| reflexivity].
        destruct (Nat.ltb_spec j (Formsets.INITIAL_FORMS b)) as [Hlt | _]; [lia |].
        reflexivity. }
    lia.
  - intros Hmany. unfold Formsets.is_valid.
    rewrite inline_formset_validates_no_count.
    destruct (Z.leb_spec (Formsets.TOTAL_FORMS b)
                (if has_add_permission user then 1010 else 1000)) as [Hle | _].
    + destruct (has_add_permission user); lia.
    + apply andb_false_r.
Qed.
